(** * ContainerProxyMixin (ember-runtime/lib/mixins/container_proxy.js)

    A shallow embedding of the container proxy mixin and of the
    Registry/Container mechanism it exposes.

    The mixin is four delegating methods.  Everything they talk to (the
    object held in [__container__], the [_super] chain, ember-metal's
    [run]) is code outside the file, so the methods are written as small
    programs over a set of primitive steps, and the behaviour of the
    collaborators is a parameter of the interpreter.  The interpreter also
    returns the list of outgoing calls, in the order they were issued. *)

From Stdlib Require Import Ascii.
From stdpp Require Import gmap strings list fin_maps.

Local Open Scope string_scope.

(** ** JavaScript values *)

Abbreviation loc := positive (only parsing).

Inductive value : Type :=
| VUndefined
| VNull
| VBool (b : bool)
| VNum (n : Z)
| VStr (s : string)
| VRef (l : loc).

#[global] Instance value_eq_dec : EqDecision value.
Proof. solve_decision. Defined.

(** [ToBoolean], as used by [if (this.__container__)]. *)
Definition to_boolean (v : value) : bool :=
  match v with
  | VUndefined | VNull => false
  | VBool b => b
  | VNum n => negb (n =? 0)%Z
  | VStr s => negb (String.eqb s "")
  | VRef _ => true
  end.

(** [a === b] on the values above. *)
Definition strict_equal (a b : value) : bool := bool_decide (a = b).

(** Things a call may throw. *)
Inductive exn : Type :=
| TypeError
| LookupError
| ContainerDestroyedError
| DuplicateRegistrationError
| TeardownFailure (failed : list loc)
| Thrown (v : value).

#[global] Instance exn_eq_dec : EqDecision exn.
Proof. solve_decision. Defined.

Inductive completion (A : Type) : Type :=
| Normal (a : A)
| Abrupt (e : exn).
Arguments Normal {A} a.
Arguments Abrupt {A} e.

(** ** Heap and world *)

(** An object has own properties and, for objects implemented outside the
    mixin (containers, registries, ...), a slot for their private state. *)
Record object (H : Type) : Type := Object {
  own : gmap string value;
  slot : option H
}.
Arguments Object {H} own slot.
Arguments own {H} o.
Arguments slot {H} o.

Record world (H X : Type) : Type := World {
  heap : gmap loc (object H);
  globals : X
}.
Arguments World {H X} heap globals.
Arguments heap {H X} w.
Arguments globals {H X} w.

(** Outgoing calls of the mixin. *)
Inductive call : Type :=
| CallMethod (recv : loc) (name : string) (args : list value)
| CallSuper (this : loc) (name : string) (args : list value)
| CallRun (args : list value).

#[global] Instance call_eq_dec : EqDecision call.
Proof. solve_decision. Defined.

Definition is_run (c : call) : bool :=
  match c with CallRun _ => true | _ => false end.

(** The [run(...)] requests among a list of calls. *)
Definition scheduled (t : list call) : list call := List.filter is_run t.

(** ** Programs *)

Inductive prog (A : Type) : Type :=
| Ret (a : A)
| Throw (e : exn)
| GetField (o : loc) (f : string) (k : value -> prog A)
| NewObject (k : loc -> prog A)
| Invoke (c : call) (k : value -> prog A).
Arguments Ret {A} a.
Arguments Throw {A} e.
Arguments GetField {A} o f k.
Arguments NewObject {A} k.
Arguments Invoke {A} c k.

Fixpoint bind {A B : Type} (k : A -> prog B) (p : prog A) : prog B :=
  match p with
  | Ret a => k a
  | Throw e => Throw e
  | GetField o f k' => GetField o f (fun v => bind k (k' v))
  | NewObject k' => NewObject (fun l => bind k (k' l))
  | Invoke c k' => Invoke c (fun v => bind k (k' v))
  end.

#[global] Instance prog_ret : MRet prog := @Ret.
#[global] Instance prog_bind : MBind prog := @bind.

(** The primitive steps as programs. *)
Definition get_field (o : loc) (f : string) : prog value := GetField o f Ret.
Definition new_object : prog loc := NewObject Ret.
Definition call_out (c : call) : prog value := Invoke c Ret.

(** [recv.name(args)]: calling a method of [null], [undefined] or of a
    primitive that has no such method throws. *)
Definition invoke (recv : value) (name : string) (args : list value) : prog value :=
  match recv with
  | VRef l => call_out (CallMethod l name args)
  | _ => Throw TypeError
  end.

(** ** The mixin *)

Module ContainerProxyMixin.

(** [__container__: null] (line 23): the value read when the owner has no
    own property of that name. *)
Definition mixin_default (f : string) : value :=
  if String.eqb f "__container__" then VNull else VUndefined.

Definition ownerInjection (this : loc) : prog value :=
  c ← get_field this "__container__";
  invoke c "ownerInjection" [].

Definition lookup (this : loc) (fullName options : value) : prog value :=
  c ← get_field this "__container__";
  invoke c "lookup" [fullName; options].

Definition willDestroy (this : loc) (arguments : list value) : prog value :=
  _ ← call_out (CallSuper this "willDestroy" arguments);
  c ← get_field this "__container__";
  if to_boolean c then
    target ← get_field this "__container__";
    _ ← call_out (CallRun [target; VStr "destroy"]);
    Ret VUndefined
  else
    Ret VUndefined.

(** [options = {}]: the default is taken when the argument is [undefined]. *)
Definition factoryFor (this : loc) (fullName options : value) : prog value :=
  options ← match options with
            | VUndefined => l ← new_object; Ret (VRef l)
            | _ => Ret options
            end;
  c ← get_field this "__container__";
  invoke c "factoryFor" [fullName; options].

End ContainerProxyMixin.

(** ** Running a program *)

Record outcome (H X A : Type) : Type := Outcome {
  result : completion A;
  final : world H X;
  issued : list call
}.
Arguments Outcome {H X A} result final issued.
Arguments result {H X A} o.
Arguments final {H X A} o.
Arguments issued {H X A} o.

Section Exec.
Context {H X : Type}.

(** [o.f] for an object the mixin was applied to. *)
Definition read_field (w : world H X) (o : loc) (f : string) : value :=
  match heap w !! o with
  | Some ob => default (ContainerProxyMixin.mixin_default f) (own ob !! f)
  | None => ContainerProxyMixin.mixin_default f
  end.

Definition new_loc (w : world H X) : loc := fresh (dom (heap w)).

(** [{}] *)
Definition alloc (w : world H X) : world H X :=
  World (<[new_loc w := Object ∅ None]> (heap w)) (globals w).

(** The collaborators: what a call returns and does to the world. *)
Variable env : call -> world H X -> completion value * world H X.

Fixpoint exec {A : Type} (p : prog A) (w : world H X) : outcome H X A :=
  match p with
  | Ret a => Outcome (Normal a) w []
  | Throw e => Outcome (Abrupt e) w []
  | GetField o f k => exec (k (read_field w o f)) w
  | NewObject k => exec (k (new_loc w)) (alloc w)
  | Invoke c k =>
      match env c w with
      | (Normal v, w') =>
          let o := exec (k v) w' in
          Outcome (result o) (final o) (c :: issued o)
      | (Abrupt e, w') => Outcome (Abrupt e) w' [c]
      end
  end.

(** Refinement target for the three forwarding methods: the corresponding
    call on [this.__container__], made in the world as it is, with the given
    arguments, and nothing else. *)
Definition container_call (this : loc) (name : string) (args : list value)
    (w : world H X) : outcome H X value :=
  match read_field w this "__container__" with
  | VRef c =>
      let '(r, w') := env (CallMethod c name args) w in
      Outcome r w' [CallMethod c name args]
  | _ => Outcome (Abrupt TypeError) w []
  end.

End Exec.

(** ** The Registry and the Container

    The mixin only forwards; what [lookup], [factoryFor], [ownerInjection]
    and [destroy] do is decided by the container package, which is modelled
    here from the specification (sections 3, 4.1, 4.2, 4.3, 6 and 7). *)

(** Modelled from the spec: the Registration, Registry, Container and
    FactoryManager records of the data model (section 3); the container and
    registry classes themselves are not in this file. *)
Record registration : Type := Registration {
  reg_factory : value;
  reg_singleton : bool;
  reg_instantiate : bool
}.

Record registry : Type := MkRegistry {
  registrations : gmap string registration;
  injections : gmap string (gmap string value)
}.

Record container : Type := MkContainer {
  c_registry : loc;
  c_owner : value;
  c_cache : gmap string loc;
  c_destroyed : bool;
  c_strict : bool
}.

Record instance : Type := MkInstance {
  i_class : value;
  i_hook : option bool;
  i_torn_down : nat
}.

Record manager : Type := MkManager {
  m_container : loc;
  m_fullName : string
}.

(** Private state of the objects implemented by the container package.
    [HFactory h]: a registered class; [h] says whether its instances have a
    destroy hook ([None]: no hook) and whether the hook returns ([Some true])
    or throws ([Some false]). *)
Inductive host : Type :=
| HRegistry (r : registry)
| HContainer (k : container)
| HFactory (h : option bool)
| HInstance (i : instance)
| HManager (m : manager).

(** Requests handed to [run], waiting for the owner's teardown phase. *)
Abbreviation queue := (list (loc * string)) (only parsing).

Abbreviation state := (world host queue) (only parsing).

Definition arg (n : nat) (args : list value) : value := nth n args VUndefined.

(** [o.f] on a plain object or a primitive. *)
Definition prop (w : state) (o : value) (f : string) : completion value :=
  match o with
  | VUndefined | VNull => Abrupt TypeError
  | VRef l =>
      match heap w !! l with
      | Some ob => Normal (default VUndefined (own ob !! f))
      | None => Normal VUndefined
      end
  | _ => Normal VUndefined
  end.

(** The type segment of an identifier ["type:name"]. *)
Fixpoint type_of (identifier : string) : string :=
  match identifier with
  | EmptyString => EmptyString
  | String a rest => if Ascii.eqb a ":"%char then EmptyString else String a (type_of rest)
  end.

(** Keys under which an instance carries its owner and an owner-injection
    bag names its container; the specification leaves both unnamed. *)
Definition ownerKey : string := "owner".
Definition containerKey : string := "container".

Module Registry.

(** Modelled from the spec: [register(identifier, factory, options)] of the
    registry (section 4.1), which fails on an identifier already registered
    unless the override flag is given. *)
Definition register (identifier : string) (factory : value)
    (singleton instantiate override : bool) (r : registry) : completion registry :=
  match registrations r !! identifier with
  | Some _ =>
      if override then
        Normal (MkRegistry
                  (<[identifier := Registration factory singleton instantiate]> (registrations r))
                  (injections r))
      else Abrupt DuplicateRegistrationError
  | None =>
      Normal (MkRegistry
                (<[identifier := Registration factory singleton instantiate]> (registrations r))
                (injections r))
  end.

(** Modelled from the spec: [resolve(identifier)] of the registry (section
    4.1); absence is a result, not an exception. *)
Definition resolve (identifier : string) (r : registry) : option registration :=
  registrations r !! identifier.

End Registry.

Module Container.

Definition container_at (w : state) (c : loc) : option container :=
  match heap w !! c with
  | Some (Object _ (Some (HContainer k))) => Some k
  | _ => None
  end.

Definition registry_at (w : state) (r : loc) : option registry :=
  match heap w !! r with
  | Some (Object _ (Some (HRegistry g))) => Some g
  | _ => None
  end.

Definition manager_at (w : state) (m : loc) : option manager :=
  match heap w !! m with
  | Some (Object _ (Some (HManager g))) => Some g
  | _ => None
  end.

(** The destroy hook instances of a class have. *)
Definition hook_of (w : state) (factory : value) : option bool :=
  match factory with
  | VRef f =>
      match heap w !! f with
      | Some (Object _ (Some (HFactory h))) => h
      | _ => None
      end
  | _ => None
  end.

(** Replace the private state of object [l], keeping its properties. *)
Definition set_slot (w : state) (l : loc) (h : host) : state :=
  World (alter (fun ob => Object (own ob) (Some h)) l (heap w)) (globals w).

(** Modelled from the spec: resolving an identifier through the container's
    registry (section 4.2); only strings are identifiers. *)
Definition resolve (w : state) (k : container) (identifier : value)
    : option (string * registration) :=
  match identifier with
  | VStr id =>
      g ← registry_at w (c_registry k);
      reg ← Registry.resolve id g;
      Some (id, reg)
  | _ => None
  end.

(** Modelled from the spec: the injection rule of section 4.2, the
    injections declared for the identifier's type plus the owner reference. *)
Definition injected (w : state) (k : container) (id : string) : gmap string value :=
  <[ownerKey := c_owner k]>
    (default ∅ (g ← registry_at w (c_registry k); injections g !! type_of id)).

(** Modelled from the spec: constructing an instance through the registered
    factory: a new object that carries [props], is an instance of the
    factory's class and has the class's destroy hook. *)
Definition construct (w : state) (reg : registration) (props : gmap string value)
    : loc * state :=
  let i := new_loc w in
  (i, World (<[i := Object props
                      (Some (HInstance (MkInstance (reg_factory reg)
                                                   (hook_of w (reg_factory reg)) 0)))]>
               (heap w))
            (globals w)).

(** Modelled from the spec: the not-found behaviour, an error or an empty
    result by the configured strictness (sections 4.2 and 7). *)
Definition not_found (k : container) (w : state) : completion value * state :=
  if c_strict k then (Abrupt LookupError, w) else (Normal VUndefined, w).

(** Modelled from the spec: [options = {singleton: true}] followed by the
    test [options.singleton === false] (section 4.2).  The result is [true]
    when a new, uncached instance is asked for. *)
Definition singleton_false (w : state) (options : value) : completion bool :=
  match options with
  | VUndefined => Normal false
  | _ =>
      match prop w options "singleton" with
      | Normal v => Normal (strict_equal v (VBool false))
      | Abrupt e => Abrupt e
      end
  end.

Definition cached (k : container) (identifier : value) : option loc :=
  match identifier with
  | VStr id => c_cache k !! id
  | _ => None
  end.

Definition cache_put (w : state) (c : loc) (k : container) (id : string) (i : loc) : state :=
  set_slot w c
    (HContainer (MkContainer (c_registry k) (c_owner k) (<[id := i]> (c_cache k))
                             (c_destroyed k) (c_strict k))).

(** Modelled from the spec: [lookup(identifier, options = {singleton: true})]
    of the container (section 4.2), failing on a destroyed container
    (sections 4.2 and 7); only instances of singleton registrations are
    cached (section 3). *)
Definition lookup (c : loc) (identifier options : value) (w : state)
    : completion value * state :=
  match container_at w c with
  | None => (Abrupt TypeError, w)
  | Some k =>
      if c_destroyed k then (Abrupt ContainerDestroyedError, w)
      else
        match singleton_false w options with
        | Abrupt e => (Abrupt e, w)
        | Normal true =>
            match resolve w k identifier with
            | None => not_found k w
            | Some (id, reg) =>
                let '(i, w') := construct w reg (injected w k id) in
                (Normal (VRef i), w')
            end
        | Normal false =>
            match cached k identifier with
            | Some i => (Normal (VRef i), w)
            | None =>
                match resolve w k identifier with
                | None => not_found k w
                | Some (id, reg) =>
                    let '(i, w') := construct w reg (injected w k id) in
                    (Normal (VRef i),
                     if reg_singleton reg then cache_put w' c k id i else w')
                end
            end
        end
  end.

(** Modelled from the spec: [factoryFor(identifier, options = {})] of the
    container (section 4.2): a new FactoryManager [{class, create}] bound to
    the registration and the container, nothing instantiated. *)
Definition factoryFor (c : loc) (identifier options : value) (w : state)
    : completion value * state :=
  match container_at w c with
  | None => (Abrupt TypeError, w)
  | Some k =>
      if c_destroyed k then (Abrupt ContainerDestroyedError, w)
      else
        match resolve w k identifier with
        | None => not_found k w
        | Some (id, reg) =>
            let m := new_loc w in
            (Normal (VRef m),
             World (<[m := Object {["class" := reg_factory reg]}
                                  (Some (HManager (MkManager c id)))]> (heap w))
                   (globals w))
        end
  end.

(** Modelled from the spec: [ownerInjection()] of the container (sections
    4.2 and 6): a new options bag [{ [containerKey]: container }]. *)
Definition ownerInjection (c : loc) (w : state) : completion value * state :=
  let b := new_loc w in
  (Normal (VRef b),
   World (<[b := Object {[containerKey := VRef c]} None]> (heap w)) (globals w)).

Definition own_props (w : state) (v : value) : gmap string value :=
  match v with
  | VRef l => match heap w !! l with Some ob => own ob | None => ∅ end
  | _ => ∅
  end.

(** Modelled from the spec: [create(initialProperties = {})] of a
    FactoryManager (section 4.3); the caller's properties win over the
    injections, and nothing is cached. *)
Definition create (m : loc) (initialProperties : value) (w : state)
    : completion value * state :=
  match manager_at w m with
  | None => (Abrupt TypeError, w)
  | Some g =>
      match container_at w (m_container g) with
      | None => (Abrupt TypeError, w)
      | Some k =>
          match resolve w k (VStr (m_fullName g)) with
          | None => not_found k w
          | Some (id, reg) =>
              let '(i, w') :=
                construct w reg (own_props w initialProperties ∪ injected w k id) in
              (Normal (VRef i), w')
          end
      end
  end.

(** One teardown attempt: the instance's destroy hook, if it has one, is
    invoked (and counted); a hook that throws is recorded, not propagated. *)
Definition run_hook (acc : list loc * state) (i : loc) : list loc * state :=
  let '(failed, w) := acc in
  match heap w !! i with
  | Some (Object _ (Some (HInstance inst))) =>
      match i_hook inst with
      | Some ok =>
          (if ok then failed else (failed ++ [i])%list,
           set_slot w i
             (HInstance (MkInstance (i_class inst) (i_hook inst) (S (i_torn_down inst)))))
      | None => (failed, w)
      end
  | _ => (failed, w)
  end.

(** Modelled from the spec: [destroy()] of the container (sections 4.2 and
    7): every cached instance is torn down, then the cache is cleared and the
    container marked destroyed; failures are surfaced after all attempts. *)
Definition destroy (c : loc) (w : state) : completion value * state :=
  match container_at w c with
  | None => (Abrupt TypeError, w)
  | Some k =>
      let '(failed, w1) := foldl run_hook ([], w) (snd <$> map_to_list (c_cache k)) in
      let w2 :=
        set_slot w1 c
          (HContainer (MkContainer (c_registry k) (c_owner k) ∅ true (c_strict k))) in
      (match failed with
       | [] => Normal VUndefined
       | _ => Abrupt (TeardownFailure failed)
       end, w2)
  end.

(** Modelled from the spec: the collaborators of the mixin when its
    [__container__] is such a container: method calls are dispatched on the
    receiver, the owner has no teardown logic of its own, and [run] queues
    the request for the owner's teardown phase (section 5). *)
Definition env (c : call) (w : state) : completion value * state :=
  match c with
  | CallMethod recv name args =>
      match heap w !! recv with
      | Some (Object _ (Some (HContainer _))) =>
          if String.eqb name "lookup" then lookup recv (arg 0 args) (arg 1 args) w
          else if String.eqb name "factoryFor" then factoryFor recv (arg 0 args) (arg 1 args) w
          else if String.eqb name "ownerInjection" then ownerInjection recv w
          else if String.eqb name "destroy" then destroy recv w
          else (Abrupt TypeError, w)
      | Some (Object _ (Some (HManager _))) =>
          if String.eqb name "create" then create recv (arg 0 args) w
          else (Abrupt TypeError, w)
      | _ => (Abrupt TypeError, w)
      end
  | CallSuper _ _ _ => (Normal VUndefined, w)
  | CallRun args =>
      match arg 0 args, arg 1 args with
      | VRef target, VStr method =>
          (Normal VUndefined, World (heap w) (globals w ++ [(target, method)])%list)
      | _, _ => (Abrupt TypeError, w)
      end
  end.

(** Modelled from the spec: the owner's teardown phase (section 5), in which
    the queued requests run. *)
Definition teardown_phase (w : state) : list (completion value) * state :=
  foldl (fun acc req =>
           let '(r, w') := env (CallMethod (fst req) (snd req) []) (snd acc) in
           ((fst acc ++ [r])%list, w'))
        ([], World (heap w) []) (globals w).

End Container.

(** ** Sequences of calls through an owner *)

Module Owner.

(** [n] successive calls [owner.lookup(fullName, options)] on a world run by
    the container package: their results in order, and the world they leave. *)
Fixpoint lookups (this : loc) (fullName options : value) (n : nat) (w : state)
    : list (completion value) * state :=
  match n with
  | 0 => ([], w)
  | S n' =>
      let o := exec Container.env (ContainerProxyMixin.lookup this fullName options) w in
      let '(rs, w') := lookups this fullName options n' (final o) in
      (result o :: rs, w')
  end.

Inductive request : Type :=
| Lookup (fullName options : value)
| FactoryFor (fullName options : value).

Definition perform (this : loc) (r : request) : prog value :=
  match r with
  | Lookup fullName options => ContainerProxyMixin.lookup this fullName options
  | FactoryFor fullName options => ContainerProxyMixin.factoryFor this fullName options
  end.

(** The results of a list of requests made one after the other. *)
Fixpoint serve (this : loc) (rs : list request) (w : state) : list (completion value) :=
  match rs with
  | [] => []
  | r :: rs' =>
      let o := exec Container.env (perform this r) w in
      result o :: serve this rs' (final o)
  end.

(** The owner [this] holds container [c], whose private state is [k]. *)
Definition wired (w : state) (this c : loc) (k : container) : Prop :=
  read_field w this "__container__" = VRef c /\ Container.container_at w c = Some k.

End Owner.

(** ** Concrete worlds *)

Module Scenario.

(** A registry with [api:twitter] registered as a singleton, a container on
    it, and an owner wired to the container. *)
Definition registry_loc : loc := 1%positive.
Definition Twitter : loc := 2%positive.
Definition container_loc : loc := 3%positive.
Definition owner : loc := 4%positive.
Definition fresh_options : loc := 5%positive.
Definition singleton_options : loc := 6%positive.

Definition boot : registry :=
  MkRegistry {["api:twitter" := Registration (VRef Twitter) true true]} ∅.

Definition w0 : state :=
  World
    (<[registry_loc := Object ∅ (Some (HRegistry boot))]>
     (<[Twitter := Object ∅ (Some (HFactory (Some true)))]>
      (<[container_loc :=
           Object ∅ (Some (HContainer (MkContainer registry_loc (VRef owner) ∅ false true)))]>
       (<[owner := Object {["__container__" := VRef container_loc]} None]>
        (<[fresh_options := Object {["singleton" := VBool false]} None]>
         (<[singleton_options := Object {["singleton" := VBool true]} None]> ∅))))))
    [].

(** The same world, with a lenient container (not-found is an empty result). *)
Definition w_lenient : state :=
  Container.set_slot w0 container_loc
    (HContainer (MkContainer registry_loc (VRef owner) ∅ false false)).

(** An owner that never received a container. *)
Definition bare : state := World (<[owner := Object ∅ None]> ∅) [].

(** A container whose methods answer with their second argument. *)
Definition echo (c : call) (w : state) : completion value * state :=
  match c with
  | CallMethod _ _ args => (Normal (arg 1 args), w)
  | _ => (Normal VUndefined, w)
  end.

End Scenario.

(** ** Collaborators that fail *)

Module Faults.

(** A super chain that throws; every other call is answered as by
    [Scenario.echo]. *)
Definition failing_super (c : call) (w : state) : completion value * state :=
  match c with
  | CallSuper _ _ _ => (Abrupt (Thrown (VStr "teardown failed")), w)
  | _ => Scenario.echo c w
  end.

(** A run loop that throws; every other call is answered as by
    [Scenario.echo]. *)
Definition failing_run (c : call) (w : state) : completion value * state :=
  match c with
  | CallRun _ => (Abrupt (Thrown (VStr "no run loop")), w)
  | _ => Scenario.echo c w
  end.

End Faults.

(** * Properties of the mixin, for any container, super chain and run loop *)

Section MixinFacts.
Context {H X : Type}.
Variable env : call -> world H X -> completion value * world H X.

Import ContainerProxyMixin.

Lemma exec_lookup this fullName options (w : world H X) :
  exec env (lookup this fullName options) w
  = container_call env this "lookup" [fullName; options] w.
Proof.
  unfold lookup, container_call. simpl.
  destruct (read_field w this "__container__"); simpl; try reflexivity.
  destruct (env _ w) as [[v|e] w']; reflexivity.
Qed.

Lemma exec_ownerInjection this (w : world H X) :
  exec env (ownerInjection this) w = container_call env this "ownerInjection" [] w.
Proof.
  unfold ownerInjection, container_call. simpl.
  destruct (read_field w this "__container__"); simpl; try reflexivity.
  destruct (env _ w) as [[v|e] w']; reflexivity.
Qed.

Lemma exec_factoryFor_given this fullName options (w : world H X) :
  options <> VUndefined ->
  exec env (factoryFor this fullName options) w
  = container_call env this "factoryFor" [fullName; options] w.
Proof.
  intros Hopt. unfold factoryFor, container_call.
  destruct options; try congruence; simpl;
    (destruct (read_field w this "__container__"); simpl; try reflexivity;
     destruct (env _ w) as [[v|e] w']; reflexivity).
Qed.

Lemma exec_factoryFor_omitted this fullName (w : world H X) :
  exec env (factoryFor this fullName VUndefined) w
  = container_call env this "factoryFor" [fullName; VRef (new_loc w)] (alloc w).
Proof.
  unfold factoryFor, container_call. simpl.
  destruct (read_field (alloc w) this "__container__"); simpl; try reflexivity.
  destruct (env _ (alloc w)) as [[v|e] w']; reflexivity.
Qed.

Lemma new_loc_fresh (w : world H X) : heap w !! new_loc w = None.
Proof. apply not_elem_of_dom. unfold new_loc. apply is_fresh. Qed.

Lemma read_field_alloc (w : world H X) o f :
  read_field (alloc w) o f = read_field w o f.
Proof.
  unfold read_field, alloc. simpl.
  destruct (decide (o = new_loc w)) as [->|Hne].
  - rewrite lookup_insert_eq, new_loc_fresh. simpl. rewrite lookup_empty. reflexivity.
  - rewrite lookup_insert_ne by congruence. reflexivity.
Qed.

(** What a whole [willDestroy] call does, by the way its super chain ends. *)
Lemma exec_willDestroy this args (w : world H X) :
  exec env (willDestroy this args) w =
  match env (CallSuper this "willDestroy" args) w with
  | (Abrupt e, w1) => Outcome (Abrupt e) w1 [CallSuper this "willDestroy" args]
  | (Normal _, w1) =>
      let c := read_field w1 this "__container__" in
      if to_boolean c then
        match env (CallRun [c; VStr "destroy"]) w1 with
        | (Normal _, w2) =>
            Outcome (Normal VUndefined) w2
                    [CallSuper this "willDestroy" args; CallRun [c; VStr "destroy"]]
        | (Abrupt e, w2) =>
            Outcome (Abrupt e) w2
                    [CallSuper this "willDestroy" args; CallRun [c; VStr "destroy"]]
        end
      else Outcome (Normal VUndefined) w1 [CallSuper this "willDestroy" args]
  end.
Proof.
  unfold willDestroy. simpl.
  destruct (env (CallSuper this "willDestroy" args) w) as [[u|e] w1]; [|reflexivity].
  simpl. destruct (to_boolean (read_field w1 this "__container__")); simpl; [|reflexivity].
  destruct (env _ w1) as [[v|e] w2]; reflexivity.
Qed.

(** C1 (as amended): [lookup] and [ownerInjection] are exactly the
    corresponding call on [__container__]: same arguments, same world, same
    result, one outgoing call.  [factoryFor] is too whenever [options] is not
    [undefined]; with [options] undefined or omitted the container is called
    with a reference to a newly created empty object [{}] in its place. *)
Theorem proxy_forwards_to_container this fullName options (w : world H X) :
  exec env (lookup this fullName options) w
  = container_call env this "lookup" [fullName; options] w
  /\ exec env (ownerInjection this) w
     = container_call env this "ownerInjection" [] w
  /\ match options with
     | VUndefined =>
         exec env (factoryFor this fullName options) w
         = container_call env this "factoryFor" [fullName; VRef (new_loc w)] (alloc w)
     | _ =>
         exec env (factoryFor this fullName options) w
         = container_call env this "factoryFor" [fullName; options] w
     end
  /\ heap w !! new_loc w = None
  /\ heap (alloc w) !! new_loc w = Some (Object ∅ None).
Proof.
  split; [apply exec_lookup|]. split; [apply exec_ownerInjection|]. split.
  - destruct options;
      first [apply exec_factoryFor_omitted | apply exec_factoryFor_given; discriminate].
  - split; [apply new_loc_fresh | apply lookup_insert_eq].
Qed.

(** C5: when [factoryFor] is called without options on an owner that has a
    container, the container's [factoryFor] receives as options a reference
    to an object that did not exist before the call and is the empty object
    [{}] when the container is entered. *)
Theorem factoryFor_omitted_options_passes_empty_object this fullName c (w : world H X) :
  read_field w this "__container__" = VRef c ->
  heap w !! new_loc w = None
  /\ heap (alloc w) !! new_loc w = Some (Object ∅ None)
  /\ exec env (factoryFor this fullName VUndefined) w
     = (let '(r, w') := env (CallMethod c "factoryFor" [fullName; VRef (new_loc w)]) (alloc w) in
        Outcome r w' [CallMethod c "factoryFor" [fullName; VRef (new_loc w)]]).
Proof.
  intros Hc. split; [apply new_loc_fresh|]. split.
  - unfold alloc. simpl. apply lookup_insert_eq.
  - rewrite exec_factoryFor_omitted. unfold container_call.
    rewrite read_field_alloc, Hc. reflexivity.
Qed.

(** C2: when the super chain of [willDestroy] has returned, the call issues
    exactly one [run(container, 'destroy')] request if [__container__] holds
    a container (is truthy), and none if it does not. *)
Theorem willDestroy_schedules_destroy_once this args u (w w1 : world H X) :
  env (CallSuper this "willDestroy" args) w = (Normal u, w1) ->
  scheduled (issued (exec env (willDestroy this args) w))
  = if to_boolean (read_field w1 this "__container__")
    then [CallRun [read_field w1 this "__container__"; VStr "destroy"]]
    else [].
Proof.
  intros Hsuper. rewrite exec_willDestroy, Hsuper. simpl.
  destruct (to_boolean (read_field w1 this "__container__")); [|reflexivity].
  destruct (env _ w1) as [[v|e] w2]; reflexivity.
Qed.

(** C3: [willDestroy] first calls [_super] with its own arguments.  When
    [_super] has returned and [__container__] holds a container (is truthy),
    the call itself then issues the [run(container, 'destroy')] request, as
    its second and last outgoing call, in the world [_super] left, and it
    ends in the world [run] leaves.  A [run] request is never issued in any
    other position, and never unless [_super] has returned. *)
Theorem willDestroy_super_completes_before_scheduling this args (w : world H X) :
  head (issued (exec env (willDestroy this args) w))
  = Some (CallSuper this "willDestroy" args)
  /\ (forall u w1,
        env (CallSuper this "willDestroy" args) w = (Normal u, w1) ->
        to_boolean (read_field w1 this "__container__") = true ->
        issued (exec env (willDestroy this args) w)
        = [CallSuper this "willDestroy" args;
           CallRun [read_field w1 this "__container__"; VStr "destroy"]]
        /\ final (exec env (willDestroy this args) w)
           = snd (env (CallRun [read_field w1 this "__container__"; VStr "destroy"]) w1))
  /\ forall i req,
       issued (exec env (willDestroy this args) w) !! i = Some (CallRun req) ->
       i = 1
       /\ exists u w1,
            env (CallSuper this "willDestroy" args) w = (Normal u, w1)
            /\ req = [read_field w1 this "__container__"; VStr "destroy"]
            /\ final (exec env (willDestroy this args) w) = snd (env (CallRun req) w1).
Proof.
  rewrite exec_willDestroy.
  destruct (env (CallSuper this "willDestroy" args) w) as [[u|e] w1] eqn:Hsuper; simpl.
  - destruct (to_boolean (read_field w1 this "__container__")) eqn:Hc; simpl.
    + destruct (env (CallRun [read_field w1 this "__container__"; VStr "destroy"]) w1)
        as [[v|e] w2] eqn:Hrun; simpl; (split; [reflexivity|]); (split;
        [ intros u' w1' Heq _; injection Heq as _ <-; rewrite Hrun; split; reflexivity
        | intros [|[|i]] req Hi; simpl in Hi; try discriminate;
          injection Hi as <-; (split; [reflexivity|]);
          exists u, w1; rewrite Hrun; auto ]).
    + split; [reflexivity|]. split.
      * intros u' w1' Heq Hc'. injection Heq as _ <-. congruence.
      * intros [|i] req Hi; simpl in Hi; discriminate.
  - split; [reflexivity|]. split.
    + intros u' w1' Heq. discriminate.
    + intros [|i] req Hi; simpl in Hi; discriminate.
Qed.

(** C10: for an owner whose [__container__] is absent (no own property, so
    the mixin's [null] is read) or holds [null] or [undefined], [willDestroy]
    returns normally once its super chain has, leaves the world as the super
    chain left it, and makes no call besides [_super]: nothing is scheduled
    and nothing is called on a container. *)
Theorem willDestroy_without_container this args u (w w1 : world H X) :
  env (CallSuper this "willDestroy" args) w = (Normal u, w1) ->
  (heap w1 !! this ≫= (fun ob => own ob !! "__container__")) = None
  \/ read_field w1 this "__container__" = VNull
  \/ read_field w1 this "__container__" = VUndefined ->
  exec env (willDestroy this args) w
  = Outcome (Normal VUndefined) w1 [CallSuper this "willDestroy" args].
Proof.
  intros Hsuper Habsent. rewrite exec_willDestroy, Hsuper. simpl.
  assert (to_boolean (read_field w1 this "__container__") = false) as ->; [|reflexivity].
  destruct Habsent as [Hnone|[->| ->]]; try reflexivity.
  unfold read_field. destruct (heap w1 !! this) as [ob|]; simpl in *.
  - rewrite Hnone. reflexivity.
  - reflexivity.
Qed.

End MixinFacts.

(** ** The mixin on concrete worlds *)

Section MixinExamples.
Import ContainerProxyMixin Scenario.

(** C1, as stated, fails for [factoryFor] without options: the container is
    called with a new object [{}], not with [undefined], so a container that
    answers with its options argument returns another value through the owner
    than it does when called directly. *)
Lemma factoryFor_omitted_options_not_forwarded :
  exec echo (factoryFor owner (VStr "api:twitter") VUndefined) w0
  = Outcome (Normal (VRef 7%positive)) (alloc w0)
            [CallMethod container_loc "factoryFor" [VStr "api:twitter"; VRef 7%positive]]
  /\ container_call echo owner "factoryFor" [VStr "api:twitter"; VUndefined] w0
     = Outcome (Normal VUndefined) w0
               [CallMethod container_loc "factoryFor" [VStr "api:twitter"; VUndefined]]
  /\ exec echo (factoryFor owner (VStr "api:twitter") VUndefined) w0
     <> container_call echo owner "factoryFor" [VStr "api:twitter"; VUndefined] w0.
Proof.
  assert (exec echo (factoryFor owner (VStr "api:twitter") VUndefined) w0
          = Outcome (Normal (VRef 7%positive)) (alloc w0)
              [CallMethod container_loc "factoryFor" [VStr "api:twitter"; VRef 7%positive]])
    as E1 by (vm_compute; reflexivity).
  assert (container_call echo owner "factoryFor" [VStr "api:twitter"; VUndefined] w0
          = Outcome (Normal VUndefined) w0
              [CallMethod container_loc "factoryFor" [VStr "api:twitter"; VUndefined]])
    as E2 by (vm_compute; reflexivity).
  split; [exact E1|]. split; [exact E2|].
  rewrite E1, E2. intros Heq. apply (f_equal result) in Heq. discriminate Heq.
Qed.

Lemma factoryFor_omitted_options_witness :
  read_field w0 owner "__container__" = VRef container_loc
  /\ exec Container.env (factoryFor owner (VStr "api:twitter") VUndefined) w0
     = (let '(r, w') :=
          Container.env (CallMethod container_loc "factoryFor"
                           [VStr "api:twitter"; VRef (new_loc w0)]) (alloc w0) in
        Outcome r w' [CallMethod container_loc "factoryFor"
                        [VStr "api:twitter"; VRef (new_loc w0)]]).
Proof.
  split; [vm_compute; reflexivity|].
  apply (factoryFor_omitted_options_passes_empty_object
           Container.env owner (VStr "api:twitter") container_loc w0).
  vm_compute; reflexivity.
Defined.

Lemma willDestroy_schedules_destroy_once_witness :
  Container.env (CallSuper owner "willDestroy" []) w0 = (Normal VUndefined, w0)
  /\ scheduled (issued (exec Container.env (willDestroy owner []) w0))
     = if to_boolean (read_field w0 owner "__container__")
       then [CallRun [read_field w0 owner "__container__"; VStr "destroy"]]
       else [].
Proof.
  split; [reflexivity|].
  apply (willDestroy_schedules_destroy_once
           Container.env owner [] VUndefined w0 w0).
  reflexivity.
Defined.

Lemma willDestroy_without_container_witness :
  exec Container.env (willDestroy owner [VNum 1]) bare
  = Outcome (Normal VUndefined) bare [CallSuper owner "willDestroy" [VNum 1]].
Proof.
  apply (willDestroy_without_container Container.env owner [VNum 1] VUndefined bare bare).
  - reflexivity.
  - left. vm_compute. reflexivity.
Defined.

Lemma willDestroy_super_completes_before_scheduling_witness :
  Container.env (CallSuper owner "willDestroy" [VNum 1]) w0 = (Normal VUndefined, w0)
  /\ to_boolean (read_field w0 owner "__container__") = true
  /\ (issued (exec Container.env (willDestroy owner [VNum 1]) w0)
      = [CallSuper owner "willDestroy" [VNum 1];
         CallRun [read_field w0 owner "__container__"; VStr "destroy"]]
      /\ final (exec Container.env (willDestroy owner [VNum 1]) w0)
         = snd (Container.env
                  (CallRun [read_field w0 owner "__container__"; VStr "destroy"]) w0))
  /\ issued (exec Container.env (willDestroy owner [VNum 1]) w0) !! 1
     = Some (CallRun [VRef container_loc; VStr "destroy"])
  /\ (1 = 1
      /\ exists u w1,
           Container.env (CallSuper owner "willDestroy" [VNum 1]) w0 = (Normal u, w1)
           /\ [VRef container_loc; VStr "destroy"]
              = [read_field w1 owner "__container__"; VStr "destroy"]
           /\ final (exec Container.env (willDestroy owner [VNum 1]) w0)
              = snd (Container.env (CallRun [VRef container_loc; VStr "destroy"]) w1)).
Proof.
  split; [reflexivity|]. split; [vm_compute; reflexivity|]. split.
  - apply (proj1 (proj2 (willDestroy_super_completes_before_scheduling
                           Container.env owner [VNum 1] w0)) VUndefined w0).
    + reflexivity.
    + vm_compute. reflexivity.
  - split; [vm_compute; reflexivity|].
    apply (proj2 (proj2 (willDestroy_super_completes_before_scheduling
                           Container.env owner [VNum 1] w0))
             1 [VRef container_loc; VStr "destroy"]).
    vm_compute. reflexivity.
Defined.

(** The scenario of C2 spelled out: one request on a wired owner, none on a
    bare one. *)
Example willDestroy_wired :
  issued (exec Container.env (willDestroy owner []) w0)
  = [CallSuper owner "willDestroy" []; CallRun [VRef container_loc; VStr "destroy"]].
Proof. vm_compute. reflexivity. Qed.

End MixinExamples.

(** * Properties of an owner wired to a container *)

Section ContainerFacts.
Import ContainerProxyMixin Owner.

Implicit Types (w : state) (c this : loc) (k : container).

Lemma container_at_slot w c k :
  Container.container_at w c = Some k ->
  exists ow, heap w !! c = Some (Object ow (Some (HContainer k))).
Proof.
  unfold Container.container_at. intros Hk.
  destruct (heap w !! c) as [[ow [[]|]]|]; try discriminate.
  injection Hk as ->. eauto.
Qed.

Lemma env_lookup w c k fullName options :
  Container.container_at w c = Some k ->
  Container.env (CallMethod c "lookup" [fullName; options]) w
  = Container.lookup c fullName options w.
Proof. intros [ow Hc]%container_at_slot. unfold Container.env. rewrite Hc. reflexivity. Qed.

Lemma env_factoryFor w c k fullName options :
  Container.container_at w c = Some k ->
  Container.env (CallMethod c "factoryFor" [fullName; options]) w
  = Container.factoryFor c fullName options w.
Proof. intros [ow Hc]%container_at_slot. unfold Container.env. rewrite Hc. reflexivity. Qed.

Lemma env_ownerInjection w c k :
  Container.container_at w c = Some k ->
  Container.env (CallMethod c "ownerInjection" []) w = Container.ownerInjection c w.
Proof. intros [ow Hc]%container_at_slot. unfold Container.env. rewrite Hc. reflexivity. Qed.

(** Through the owner, a call is the container's operation. *)
Lemma owner_lookup w this c k fullName options :
  wired w this c k ->
  exec Container.env (lookup this fullName options) w
  = Outcome (fst (Container.lookup c fullName options w))
            (snd (Container.lookup c fullName options w))
            [CallMethod c "lookup" [fullName; options]].
Proof.
  intros [Hthis Hk]. rewrite exec_lookup. unfold container_call.
  rewrite Hthis, (env_lookup _ _ _ _ _ Hk).
  destruct (Container.lookup c fullName options w); reflexivity.
Qed.

Lemma owner_ownerInjection w this c k :
  wired w this c k ->
  exec Container.env (ownerInjection this) w
  = Outcome (fst (Container.ownerInjection c w)) (snd (Container.ownerInjection c w))
            [CallMethod c "ownerInjection" []].
Proof.
  intros [Hthis Hk]. rewrite exec_ownerInjection. unfold container_call.
  rewrite Hthis, (env_ownerInjection _ _ _ Hk). reflexivity.
Qed.

(** *** Worlds that only grow *)

Lemma wired_in_heap w this c :
  read_field w this "__container__" = VRef c -> is_Some (heap w !! this).
Proof.
  unfold read_field. destruct (heap w !! this); [eauto|]. discriminate.
Qed.

Lemma read_field_grow w w' this c :
  heap w ⊆ heap w' ->
  read_field w this "__container__" = VRef c ->
  read_field w' this "__container__" = VRef c.
Proof.
  intros Hsub Hthis. destruct (wired_in_heap _ _ _ Hthis) as [ob Hob].
  unfold read_field in *. rewrite Hob in Hthis.
  rewrite (lookup_weaken _ _ _ _ Hob Hsub). exact Hthis.
Qed.

Lemma container_at_grow w w' c k :
  heap w ⊆ heap w' ->
  Container.container_at w c = Some k -> Container.container_at w' c = Some k.
Proof.
  intros Hsub [ow Hc]%container_at_slot. unfold Container.container_at.
  rewrite (lookup_weaken _ _ _ _ Hc Hsub). reflexivity.
Qed.

Lemma wired_grow w w' this c k :
  heap w ⊆ heap w' -> wired w this c k -> wired w' this c k.
Proof.
  intros Hsub [Hthis Hk]. split; eauto using read_field_grow, container_at_grow.
Qed.

Lemma grow_new w (ob : object host) : heap w ⊆ <[new_loc w := ob]> (heap w).
Proof. apply insert_subseteq, new_loc_fresh. Qed.

(** C4: through an owner wired to a container, [lookup] without options
    returns what [lookup] with an options object [{singleton: true}] returns,
    and leaves the same world. *)
Theorem lookup_omitted_options_is_singleton_lookup w this c k fullName o ob :
  wired w this c k ->
  heap w !! o = Some ob ->
  own ob !! "singleton" = Some (VBool true) ->
  result (exec Container.env (lookup this fullName VUndefined) w)
  = result (exec Container.env (lookup this fullName (VRef o)) w)
  /\ final (exec Container.env (lookup this fullName VUndefined) w)
     = final (exec Container.env (lookup this fullName (VRef o)) w).
Proof.
  intros Hw Ho Hs. rewrite !(owner_lookup _ _ _ _ _ _ Hw). simpl.
  assert (Container.lookup c fullName VUndefined w
          = Container.lookup c fullName (VRef o) w) as ->; [|split; reflexivity].
  unfold Container.lookup, Container.singleton_false, prop.
  rewrite Ho, Hs. reflexivity.
Qed.

(** C9: two successive [ownerInjection()] calls through an owner wired to a
    container both return a new bag [{ [containerKey]: container }] naming
    that container; apart from the two bags, every object of the heap and
    the run-loop queue are as they were before the calls. *)
Theorem ownerInjection_pure w this c k :
  wired w this c k ->
  let o1 := exec Container.env (ownerInjection this) w in
  let o2 := exec Container.env (ownerInjection this) (final o1) in
  exists b1 b2,
    result o1 = Normal (VRef b1) /\ result o2 = Normal (VRef b2)
    /\ heap (final o2) !! b1 = Some (Object {[containerKey := VRef c]} None)
    /\ heap (final o2) !! b2 = Some (Object {[containerKey := VRef c]} None)
    /\ heap w !! b1 = None /\ heap w !! b2 = None
    /\ (forall l, l <> b1 -> heap (final o1) !! l = heap w !! l)
    /\ (forall l, l <> b1 -> l <> b2 -> heap (final o2) !! l = heap w !! l)
    /\ globals (final o1) = globals w /\ globals (final o2) = globals w.
Proof.
  intros Hw. cbv zeta.
  set (bag := Object {[containerKey := VRef c]} None).
  set (w1 := World (<[new_loc w := bag]> (heap w)) (globals w)).
  set (w2 := World (<[new_loc w1 := bag]> (heap w1)) (globals w1)).
  assert (wired w1 this c k) as Hw1 by (apply (wired_grow w); [apply grow_new | exact Hw]).
  assert (exec Container.env (ownerInjection this) w
          = Outcome (Normal (VRef (new_loc w))) w1 [CallMethod c "ownerInjection" []])
    as -> by (rewrite (owner_ownerInjection _ _ _ _ Hw); reflexivity).
  cbn [final result].
  assert (exec Container.env (ownerInjection this) w1
          = Outcome (Normal (VRef (new_loc w1))) w2 [CallMethod c "ownerInjection" []])
    as -> by (rewrite (owner_ownerInjection _ _ _ _ Hw1); reflexivity).
  cbn [final result].
  assert (forall l, l <> new_loc w -> heap w1 !! l = heap w !! l) as F1
    by (intros l Hl; apply lookup_insert_ne; congruence).
  assert (forall l, l <> new_loc w1 -> heap w2 !! l = heap w1 !! l) as F2
    by (intros l Hl; apply lookup_insert_ne; congruence).
  assert (heap w1 !! new_loc w = Some bag) as G1 by apply lookup_insert_eq.
  assert (heap w2 !! new_loc w1 = Some bag) as G2 by apply lookup_insert_eq.
  assert (new_loc w <> new_loc w1) as Hne
    by (intros Heq; rewrite Heq, new_loc_fresh in G1; discriminate).
  exists (new_loc w), (new_loc w1). repeat split.
  - rewrite F2 by exact Hne. exact G1.
  - exact G2.
  - apply new_loc_fresh.
  - rewrite <- F1 by congruence. apply new_loc_fresh.
  - exact F1.
  - intros l Hl1 Hl2. rewrite F2, F1 by assumption. reflexivity.
Qed.

(** *** Singleton lookups *)

Lemma read_field_set_slot w l h o f :
  read_field (Container.set_slot w l h) o f = read_field w o f.
Proof.
  unfold read_field, Container.set_slot. cbn [heap].
  destruct (decide (l = o)) as [->|Hne].
  - rewrite lookup_alter_eq. destruct (heap w !! o); reflexivity.
  - rewrite lookup_alter_ne by exact Hne. reflexivity.
Qed.

Lemma container_at_set_slot w c k' :
  is_Some (heap w !! c) ->
  Container.container_at (Container.set_slot w c (HContainer k')) c = Some k'.
Proof.
  intros [ob Hob]. unfold Container.container_at, Container.set_slot. cbn [heap].
  rewrite lookup_alter_eq, Hob. reflexivity.
Qed.

Lemma resolve_grow w w' k identifier r :
  heap w ⊆ heap w' ->
  Container.resolve w k identifier = Some r -> Container.resolve w' k identifier = Some r.
Proof.
  intros Hsub. unfold Container.resolve, Container.registry_at.
  destruct identifier; try discriminate.
  destruct (heap w !! c_registry k) as [[og [[]|]]|] eqn:Hg; try discriminate.
  rewrite (lookup_weaken _ _ _ _ Hg Hsub). trivial.
Qed.

Lemma resolve_id w k id id' reg :
  Container.resolve w k (VStr id) = Some (id', reg) -> id' = id.
Proof.
  unfold Container.resolve. destruct (Container.registry_at w (c_registry k)); simpl; [|discriminate].
  destruct (Registry.resolve id r); simpl; [|discriminate]. congruence.
Qed.

(** Once the instance is in the cache, a singleton lookup returns it and
    changes nothing. *)
Lemma lookups_cached w this c k id i n :
  wired w this c k -> c_destroyed k = false -> c_cache k !! id = Some i ->
  lookups this (VStr id) VUndefined n w = (replicate n (Normal (VRef i)), w).
Proof.
  intros Hw Hlive Hi. induction n as [|n IH]; [reflexivity|].
  cbn [lookups]. rewrite (owner_lookup _ _ _ _ _ _ Hw).
  assert (Container.lookup c (VStr id) VUndefined w = (Normal (VRef i), w)) as ->.
  { unfold Container.lookup. rewrite (proj2 Hw), Hlive. cbn. rewrite Hi. reflexivity. }
  cbn [fst snd final result]. rewrite IH. reflexivity.
Qed.

(** C6: on a container that is not destroyed, for an identifier registered
    as a singleton, any number of successive [lookup(id)] calls through the
    owner all return one and the same instance reference. *)
Theorem singleton_lookups_return_same_reference w this c k id reg :
  wired w this c k ->
  c_destroyed k = false ->
  Container.resolve w k (VStr id) = Some (id, reg) ->
  reg_singleton reg = true ->
  exists i, forall n,
    fst (lookups this (VStr id) VUndefined n w) = replicate n (Normal (VRef i)).
Proof.
  intros Hw Hlive Hreg Hsingle.
  destruct (c_cache k !! id) as [i|] eqn:Hcache.
  - exists i. intros n. rewrite (lookups_cached _ _ _ _ _ _ n Hw Hlive Hcache). reflexivity.
  - exists (new_loc w). intros [|n]; [reflexivity|].
    cbn [lookups]. rewrite (owner_lookup _ _ _ _ _ _ Hw).
    set (w' := snd (Container.construct w reg (Container.injected w k id))).
    set (k' := MkContainer (c_registry k) (c_owner k) (<[id := new_loc w]> (c_cache k))
                           (c_destroyed k) (c_strict k)).
    assert (Container.lookup c (VStr id) VUndefined w
            = (Normal (VRef (new_loc w)), Container.set_slot w' c (HContainer k'))) as ->.
    { unfold Container.lookup, Container.singleton_false, Container.cached.
      rewrite (proj2 Hw), Hlive, Hcache, Hreg, Hsingle. reflexivity. }
    cbn [fst snd final result].
    assert (heap w ⊆ heap w') as Hsub by apply grow_new.
    assert (wired (Container.set_slot w' c (HContainer k')) this c k') as Hw'.
    { split.
      - rewrite read_field_set_slot. apply (read_field_grow w); [exact Hsub | apply Hw].
      - apply container_at_set_slot.
        destruct (container_at_slot _ _ _ (proj2 Hw)) as [ow Hc].
        rewrite (lookup_weaken _ _ _ _ Hc Hsub). eauto. }
    rewrite (lookups_cached _ _ _ _ _ (new_loc w) n Hw').
    + reflexivity.
    + exact Hlive.
    + apply lookup_insert_eq.
Qed.

(** *** Lookups with [{singleton: false}] *)

Lemma lookup_uncached w c k id reg o ob :
  Container.container_at w c = Some k ->
  c_destroyed k = false ->
  Container.resolve w k (VStr id) = Some (id, reg) ->
  heap w !! o = Some ob ->
  own ob !! "singleton" = Some (VBool false) ->
  exists inst,
    Container.lookup c (VStr id) (VRef o) w
    = (Normal (VRef (new_loc w)), World (<[new_loc w := inst]> (heap w)) (globals w)).
Proof.
  intros Hk Hlive Hreg Ho Hs. eexists.
  unfold Container.lookup, Container.singleton_false, prop.
  rewrite Hk, Hlive, Ho, Hs.
  change (strict_equal (default VUndefined (Some (VBool false))) (VBool false)) with true.
  cbv iota. rewrite Hreg. reflexivity.
Qed.

(** C7 (as amended): on a container that is not destroyed, for a registered
    identifier, two successive [lookup(id, {singleton: false})] calls through
    the owner return two different references, both to objects that did not
    exist before, and leave the container's state, its cache included, as it
    was. *)
Theorem unshared_lookups_return_distinct_references w this c k id reg o ob :
  wired w this c k ->
  c_destroyed k = false ->
  Container.resolve w k (VStr id) = Some (id, reg) ->
  heap w !! o = Some ob ->
  own ob !! "singleton" = Some (VBool false) ->
  exists i1 i2,
    fst (lookups this (VStr id) (VRef o) 2 w) = [Normal (VRef i1); Normal (VRef i2)]
    /\ i1 <> i2
    /\ heap w !! i1 = None /\ heap w !! i2 = None
    /\ Container.container_at (snd (lookups this (VStr id) (VRef o) 2 w)) c = Some k.
Proof.
  intros Hw Hlive Hreg Ho Hs.
  destruct (lookup_uncached _ _ _ _ _ _ _ (proj2 Hw) Hlive Hreg Ho Hs) as [inst1 E1].
  set (w1 := World (<[new_loc w := inst1]> (heap w)) (globals w)) in *.
  assert (heap w ⊆ heap w1) as Hsub1 by apply grow_new.
  assert (wired w1 this c k) as Hw1 by (apply (wired_grow w); assumption).
  destruct (lookup_uncached w1 c k id reg o ob (proj2 Hw1) Hlive
              (resolve_grow _ _ _ _ _ Hsub1 Hreg)
              (lookup_weaken _ _ _ _ Ho Hsub1) Hs) as [inst2 E2].
  set (w2 := World (<[new_loc w1 := inst2]> (heap w1)) (globals w1)) in *.
  assert (heap w1 ⊆ heap w2) as Hsub2 by apply grow_new.
  assert (lookups this (VStr id) (VRef o) 2 w
          = ([Normal (VRef (new_loc w)); Normal (VRef (new_loc w1))], w2)) as ->.
  { cbn [lookups]. rewrite (owner_lookup _ _ _ _ _ _ Hw), E1. cbn [fst snd final result].
    rewrite (owner_lookup _ _ _ _ _ _ Hw1), E2. reflexivity. }
  assert (heap w1 !! new_loc w = Some inst1) as G1 by apply lookup_insert_eq.
  assert (new_loc w <> new_loc w1) as Hne
    by (intros Heq; rewrite Heq, new_loc_fresh in G1; discriminate).
  exists (new_loc w), (new_loc w1). cbn [fst snd]. repeat split.
  - exact Hne.
  - apply new_loc_fresh.
  - assert (heap w1 !! new_loc w1 = heap w !! new_loc w1) as <-
      by (apply lookup_insert_ne; exact Hne).
    apply new_loc_fresh.
  - apply (container_at_grow w1); [exact Hsub2 | apply Hw1].
Qed.

(** *** Destruction *)

Lemma run_hook_preserves c k acc i :
  Container.container_at (snd acc) c = Some k ->
  Container.container_at (snd (Container.run_hook acc i)) c = Some k
  /\ forall o f, read_field (snd (Container.run_hook acc i)) o f = read_field (snd acc) o f.
Proof.
  destruct acc as [failed w]. cbn [snd]. intros Hk. unfold Container.run_hook.
  destruct (heap w !! i) as [[oi [[r|k0|h|inst|m]|]]|] eqn:Hi; cbn [snd]; auto.
  destruct (i_hook inst) as [ok|]; cbn [snd]; auto.
  split; [|intros o f; apply read_field_set_slot].
  destruct (container_at_slot _ _ _ Hk) as [ow Hc].
  assert (i <> c) as Hne by (intros ->; rewrite Hc in Hi; discriminate).
  unfold Container.container_at, Container.set_slot. cbn [heap].
  rewrite lookup_alter_ne by exact Hne. rewrite Hc. reflexivity.
Qed.

Lemma run_hooks_preserve c k locs : forall acc,
  Container.container_at (snd acc) c = Some k ->
  Container.container_at (snd (foldl Container.run_hook acc locs)) c = Some k
  /\ forall o f,
       read_field (snd (foldl Container.run_hook acc locs)) o f = read_field (snd acc) o f.
Proof.
  induction locs as [|i locs IH]; intros acc Hk; cbn [foldl]; [auto|].
  destruct (run_hook_preserves c k acc i Hk) as [Hk' Hread].
  destruct (IH _ Hk') as [Hk'' Hread'].
  split; [exact Hk''|]. intros o f. rewrite Hread'. apply Hread.
Qed.

(** [destroy] leaves the owner wired to its container, now marked destroyed
    and with an empty cache, whether or not a destroy hook failed. *)
Lemma destroy_marks_destroyed w this c k :
  wired w this c k ->
  wired (snd (Container.destroy c w)) this c
        (MkContainer (c_registry k) (c_owner k) ∅ true (c_strict k)).
Proof.
  intros [Hthis Hk]. unfold Container.destroy. rewrite Hk.
  destruct (run_hooks_preserve c k (snd <$> map_to_list (c_cache k)) ([], w) Hk)
    as [Hk1 Hread].
  destruct (foldl Container.run_hook ([], w) (snd <$> map_to_list (c_cache k)))
    as [failed w1]. cbn [snd] in *.
  split.
  - rewrite read_field_set_slot, Hread. exact Hthis.
  - apply container_at_set_slot.
    destruct (container_at_slot _ _ _ Hk1) as [ow Hc]. rewrite Hc. eauto.
Qed.

Lemma lookup_destroyed w c k fullName options :
  Container.container_at w c = Some k -> c_destroyed k = true ->
  Container.lookup c fullName options w = (Abrupt ContainerDestroyedError, w).
Proof. intros Hk Hd. unfold Container.lookup. rewrite Hk, Hd. reflexivity. Qed.

Lemma factoryFor_destroyed w c k fullName options :
  Container.container_at w c = Some k -> c_destroyed k = true ->
  Container.factoryFor c fullName options w = (Abrupt ContainerDestroyedError, w).
Proof. intros Hk Hd. unfold Container.factoryFor. rewrite Hk, Hd. reflexivity. Qed.

Lemma wired_alloc w this c k : wired w this c k -> wired (alloc w) this c k.
Proof. apply wired_grow. apply grow_new. Qed.

(** A request through the owner of a destroyed container fails, and the
    owner stays wired to the destroyed container. *)
Lemma perform_destroyed w this c k r :
  wired w this c k -> c_destroyed k = true ->
  result (exec Container.env (perform this r) w) = Abrupt ContainerDestroyedError
  /\ wired (final (exec Container.env (perform this r) w)) this c k.
Proof.
  intros Hw Hd. destruct r as [fullName options|fullName options]; cbn [perform].
  - rewrite (owner_lookup _ _ _ _ _ _ Hw), (lookup_destroyed _ _ _ _ _ (proj2 Hw) Hd).
    split; [reflexivity | exact Hw].
  - destruct (decide (options = VUndefined)) as [->|Hopt].
    + pose proof (wired_alloc _ _ _ _ Hw) as Hw'.
      rewrite exec_factoryFor_omitted. unfold container_call.
      rewrite (proj1 Hw'), (env_factoryFor _ _ _ _ _ (proj2 Hw')),
        (factoryFor_destroyed _ _ _ _ _ (proj2 Hw') Hd).
      split; [reflexivity | exact Hw'].
    + rewrite (exec_factoryFor_given _ _ _ _ _ Hopt). unfold container_call.
      rewrite (proj1 Hw), (env_factoryFor _ _ _ _ _ (proj2 Hw)),
        (factoryFor_destroyed _ _ _ _ _ (proj2 Hw) Hd).
      split; [reflexivity | exact Hw].
Qed.

Lemma serve_destroyed this c k rs : forall w,
  wired w this c k -> c_destroyed k = true ->
  serve this rs w = replicate (length rs) (Abrupt ContainerDestroyedError).
Proof.
  induction rs as [|r rs IH]; intros w Hw Hd; [reflexivity|].
  cbn [serve length replicate].
  destruct (perform_destroyed _ _ _ _ r Hw Hd) as [-> Hw'].
  rewrite (IH _ Hw' Hd). reflexivity.
Qed.

(** C8: once [destroy()] has run on the container of an owner, whatever it
    returned, a [lookup] or [factoryFor] call on the container fails with
    [ContainerDestroyedError], and so does every request of any later
    sequence of [lookup] and [factoryFor] calls made through the owner. *)
Theorem destroyed_container_rejects_requests w this c k :
  wired w this c k ->
  (forall fullName options,
      fst (Container.lookup c fullName options (snd (Container.destroy c w)))
      = Abrupt ContainerDestroyedError
      /\ fst (Container.factoryFor c fullName options (snd (Container.destroy c w)))
         = Abrupt ContainerDestroyedError)
  /\ forall rs,
      serve this rs (snd (Container.destroy c w))
      = replicate (length rs) (Abrupt ContainerDestroyedError).
Proof.
  intros Hw. pose proof (destroy_marks_destroyed _ _ _ _ Hw) as Hd.
  split.
  - intros fullName options.
    rewrite (lookup_destroyed _ _ _ fullName options (proj2 Hd) eq_refl),
      (factoryFor_destroyed _ _ _ fullName options (proj2 Hd) eq_refl).
    split; reflexivity.
  - intros rs. apply (serve_destroyed _ _ _ rs _ Hd). reflexivity.
Qed.

End ContainerFacts.

(** ** The container on concrete worlds *)

Section ContainerExamples.
Import ContainerProxyMixin Owner Scenario.

Lemma w0_wired :
  wired w0 owner container_loc (MkContainer registry_loc (VRef owner) ∅ false true).
Proof. split; vm_compute; reflexivity. Defined.

Lemma lookup_omitted_options_witness :
  result (exec Container.env (lookup owner (VStr "api:twitter") VUndefined) w0)
  = result (exec Container.env (lookup owner (VStr "api:twitter") (VRef singleton_options)) w0)
  /\ final (exec Container.env (lookup owner (VStr "api:twitter") VUndefined) w0)
     = final (exec Container.env (lookup owner (VStr "api:twitter") (VRef singleton_options)) w0).
Proof.
  apply (lookup_omitted_options_is_singleton_lookup
           w0 owner container_loc _ (VStr "api:twitter") singleton_options
           (Object {["singleton" := VBool true]} None) w0_wired);
    vm_compute; reflexivity.
Defined.

Lemma singleton_lookups_witness :
  exists i, forall n,
    fst (lookups owner (VStr "api:twitter") VUndefined n w0) = replicate n (Normal (VRef i)).
Proof.
  apply (singleton_lookups_return_same_reference
           w0 owner container_loc _ "api:twitter" (Registration (VRef Twitter) true true)
           w0_wired);
    vm_compute; reflexivity.
Defined.

(** C7, as stated, fails for an identifier that is not registered: both
    lookups give the not-found result, the same empty value on a lenient
    container and an error on a strict one; and on a destroyed container
    both fail even for a registered identifier.  No two distinct instance
    references are returned. *)
Lemma unshared_lookups_need_registration :
  fst (lookups owner (VStr "api:nonexistent") (VRef fresh_options) 2 w_lenient)
  = [Normal VUndefined; Normal VUndefined]
  /\ fst (lookups owner (VStr "api:nonexistent") (VRef fresh_options) 2 w0)
     = [Abrupt LookupError; Abrupt LookupError]
  /\ fst (lookups owner (VStr "api:twitter") (VRef fresh_options) 2
            (snd (Container.destroy container_loc w0)))
     = [Abrupt ContainerDestroyedError; Abrupt ContainerDestroyedError].
Proof. repeat split; vm_compute; reflexivity. Qed.

Lemma unshared_lookups_witness :
  exists i1 i2,
    fst (lookups owner (VStr "api:twitter") (VRef fresh_options) 2 w0)
    = [Normal (VRef i1); Normal (VRef i2)]
    /\ i1 <> i2
    /\ heap w0 !! i1 = None /\ heap w0 !! i2 = None
    /\ Container.container_at
         (snd (lookups owner (VStr "api:twitter") (VRef fresh_options) 2 w0)) container_loc
       = Some (MkContainer registry_loc (VRef owner) ∅ false true).
Proof.
  apply (unshared_lookups_return_distinct_references
           w0 owner container_loc _ "api:twitter" (Registration (VRef Twitter) true true)
           fresh_options (Object {["singleton" := VBool false]} None) w0_wired);
    vm_compute; reflexivity.
Defined.

Lemma destroyed_container_witness :
  serve owner [Lookup (VStr "api:twitter") VUndefined;
               FactoryFor (VStr "api:twitter") VUndefined;
               Lookup (VStr "api:twitter") (VRef fresh_options)]
        (snd (Container.destroy container_loc w0))
  = [Abrupt ContainerDestroyedError; Abrupt ContainerDestroyedError;
     Abrupt ContainerDestroyedError].
Proof.
  exact (proj2 (destroyed_container_rejects_requests w0 owner container_loc _ w0_wired)
           [Lookup (VStr "api:twitter") VUndefined;
            FactoryFor (VStr "api:twitter") VUndefined;
            Lookup (VStr "api:twitter") (VRef fresh_options)]).
Defined.

Lemma ownerInjection_pure_witness :
  exists b1 b2,
    result (exec Container.env (ownerInjection owner) w0) = Normal (VRef b1)
    /\ result (exec Container.env (ownerInjection owner)
                 (final (exec Container.env (ownerInjection owner) w0)))
       = Normal (VRef b2)
    /\ heap (final (exec Container.env (ownerInjection owner)
                      (final (exec Container.env (ownerInjection owner) w0)))) !! b1
       = Some (Object {[containerKey := VRef container_loc]} None)
    /\ heap (final (exec Container.env (ownerInjection owner)
                      (final (exec Container.env (ownerInjection owner) w0)))) !! b2
       = Some (Object {[containerKey := VRef container_loc]} None)
    /\ heap w0 !! b1 = None /\ heap w0 !! b2 = None
    /\ (forall l, l <> b1 ->
          heap (final (exec Container.env (ownerInjection owner) w0)) !! l = heap w0 !! l)
    /\ (forall l, l <> b1 -> l <> b2 ->
          heap (final (exec Container.env (ownerInjection owner)
                         (final (exec Container.env (ownerInjection owner) w0)))) !! l
          = heap w0 !! l)
    /\ globals (final (exec Container.env (ownerInjection owner) w0)) = globals w0
    /\ globals (final (exec Container.env (ownerInjection owner)
                         (final (exec Container.env (ownerInjection owner) w0))))
       = globals w0.
Proof.
  exact (ownerInjection_pure w0 owner container_loc _ w0_wired).
Defined.

(** The scenario of the specification: [api:twitter] looked up twice gives
    one instance of the registered class, and a third lookup with
    [{singleton: false}] gives another object. *)
Example twitter_scenario :
  let o1 := exec Container.env (lookup owner (VStr "api:twitter") VUndefined) w0 in
  let o2 := exec Container.env (lookup owner (VStr "api:twitter") VUndefined) (final o1) in
  let o3 := exec Container.env (lookup owner (VStr "api:twitter") (VRef fresh_options))
              (final o2) in
  result o1 = Normal (VRef 7%positive)
  /\ (slot <$> heap (final o1) !! 7%positive)
     = Some (Some (HInstance (MkInstance (VRef Twitter) (Some true) 0)))
  /\ result o2 = Normal (VRef 7%positive)
  /\ result o3 = Normal (VRef 8%positive).
Proof. vm_compute. repeat split; reflexivity. Qed.

(** Owner teardown end to end: [willDestroy] queues the container's
    [destroy], the teardown phase runs it (the cached instance's hook is
    invoked once), and a later lookup through the owner fails. *)
Example teardown_scenario :
  let o1 := exec Container.env (lookup owner (VStr "api:twitter") VUndefined) w0 in
  let o2 := exec Container.env (willDestroy owner []) (final o1) in
  let w3 := snd (Container.teardown_phase (final o2)) in
  globals (final o2) = [(container_loc, "destroy")]
  /\ fst (Container.teardown_phase (final o2)) = [Normal VUndefined]
  /\ (slot <$> heap w3 !! 7%positive)
     = Some (Some (HInstance (MkInstance (VRef Twitter) (Some true) 1)))
  /\ result (exec Container.env (lookup owner (VStr "api:twitter") VUndefined) w3)
     = Abrupt ContainerDestroyedError.
Proof. vm_compute. repeat split; reflexivity. Qed.

End ContainerExamples.

(** * Edge cases and composition of the mixin's methods *)

Section MixinEdgeCases.
Context {H X : Type}.
Variable env : call -> world H X -> completion value * world H X.

Import ContainerProxyMixin.

(** X1: on an owner whose [__container__] reads [null] (the mixin's default
    included) or [undefined], [lookup] and [ownerInjection] throw a
    [TypeError], call nothing and leave the world as it was. *)
Theorem forwarders_without_container_throw this fullName options (w : world H X) :
  read_field w this "__container__" = VNull
  \/ read_field w this "__container__" = VUndefined ->
  exec env (lookup this fullName options) w = Outcome (Abrupt TypeError) w []
  /\ exec env (ownerInjection this) w = Outcome (Abrupt TypeError) w [].
Proof.
  intros Hnone. rewrite exec_lookup, exec_ownerInjection. unfold container_call.
  destruct Hnone as [-> | ->]; split; reflexivity.
Qed.

(** X2: on such an owner [factoryFor] throws a [TypeError] and calls
    nothing; the default [{}] has already been created when [options] is
    [undefined], and that new object is the only change to the world. *)
Theorem factoryFor_without_container_throws this fullName options (w : world H X) :
  read_field w this "__container__" = VNull
  \/ read_field w this "__container__" = VUndefined ->
  exec env (factoryFor this fullName options) w
  = Outcome (Abrupt TypeError)
            (match options with VUndefined => alloc w | _ => w end) [].
Proof.
  intros Hnone. destruct (decide (options = VUndefined)) as [->|Hopt].
  - rewrite exec_factoryFor_omitted. unfold container_call. rewrite read_field_alloc.
    destruct Hnone as [-> | ->]; reflexivity.
  - rewrite (exec_factoryFor_given env _ _ _ _ Hopt). unfold container_call.
    destruct options; try congruence; destruct Hnone as [-> | ->]; reflexivity.
Qed.

(** X3: when the super chain throws, [willDestroy] throws the same thing:
    [_super] is its only outgoing call, [__container__] is not looked at and
    no destruction is requested. *)
Theorem willDestroy_propagates_super_failure this args e (w w1 : world H X) :
  env (CallSuper this "willDestroy" args) w = (Abrupt e, w1) ->
  exec env (willDestroy this args) w
  = Outcome (Abrupt e) w1 [CallSuper this "willDestroy" args].
Proof. intros Hsuper. rewrite exec_willDestroy, Hsuper. reflexivity. Qed.

(** X4: when the super chain has returned and there is a container,
    [willDestroy] ends where [run] ends: it throws what [run] throws, and
    returns [undefined] whatever value [run] returns. *)
Theorem willDestroy_result_follows_run this args u (w w1 : world H X) :
  env (CallSuper this "willDestroy" args) w = (Normal u, w1) ->
  to_boolean (read_field w1 this "__container__") = true ->
  result (exec env (willDestroy this args) w)
  = match fst (env (CallRun [read_field w1 this "__container__"; VStr "destroy"]) w1) with
    | Normal _ => Normal VUndefined
    | Abrupt e => Abrupt e
    end
  /\ final (exec env (willDestroy this args) w)
     = snd (env (CallRun [read_field w1 this "__container__"; VStr "destroy"]) w1).
Proof.
  intros Hsuper Hc. rewrite exec_willDestroy, Hsuper. cbv zeta. rewrite Hc.
  destruct (env _ w1) as [[v|e] w2]; split; reflexivity.
Qed.

(** X5: [willDestroy] makes at most two outgoing calls and none of them is
    a method call: it never calls [destroy], or anything else, on the
    container itself. *)
Theorem willDestroy_never_calls_container this args (w : world H X) :
  length (issued (exec env (willDestroy this args) w)) <= 2
  /\ forall recv name margs,
       ~ In (CallMethod recv name margs) (issued (exec env (willDestroy this args) w)).
Proof.
  rewrite exec_willDestroy.
  destruct (env (CallSuper this "willDestroy" args) w) as [[u|e] w1]; cbv zeta.
  - destruct (to_boolean (read_field w1 this "__container__")).
    + destruct (env _ w1) as [[v|e] w2]; cbn [issued length In];
        (split; [lia | intros recv name margs [Hin|[Hin|[]]]; discriminate]).
    + cbn [issued length In]. split; [lia | intros recv name margs [Hin|[]]; discriminate].
  - cbn [issued length In]. split; [lia | intros recv name margs [Hin|[]]; discriminate].
Qed.

(** X6: [lookup], [factoryFor] and [ownerInjection] each make at most one
    outgoing call, and never a [run] request or a [_super] call. *)
Theorem forwarders_call_only_the_container this fullName options (w : world H X) :
  Forall (fun o : outcome H X value =>
            length (issued o) <= 1
            /\ scheduled (issued o) = []
            /\ forall t name sargs, ~ In (CallSuper t name sargs) (issued o))
         [exec env (lookup this fullName options) w;
          exec env (factoryFor this fullName options) w;
          exec env (ownerInjection this) w].
Proof.
  assert (forall name margs (w' : world H X),
            length (issued (container_call env this name margs w')) <= 1
            /\ scheduled (issued (container_call env this name margs w')) = []
            /\ forall t sname sargs,
                 ~ In (CallSuper t sname sargs)
                      (issued (container_call env this name margs w'))) as Hcall.
  { intros name margs w'. unfold container_call.
    destruct (read_field w' this "__container__");
      try (cbn [issued length In]; repeat split; [lia | intros t sname sargs []]).
    destruct (env _ w') as [r w'']. cbn [issued length In scheduled].
    repeat split; [lia | intros t sname sargs [Hin|[]]; discriminate]. }
  constructor; [rewrite exec_lookup; apply Hcall|].
  constructor.
  { destruct (decide (options = VUndefined)) as [->|Hopt];
      [rewrite exec_factoryFor_omitted | rewrite (exec_factoryFor_given env _ _ _ _ Hopt)];
      apply Hcall. }
  constructor; [rewrite exec_ownerInjection; apply Hcall|].
  constructor.
Qed.

(** X7: every [factoryFor] call without options creates its own default
    object: as long as the object given to the container by one call still
    exists, the next call gives the container a different one. *)
Theorem factoryFor_default_objects_are_distinct this name1 name2 c1 c2 (w : world H X) :
  read_field w this "__container__" = VRef c1 ->
  read_field (final (exec env (factoryFor this name1 VUndefined) w)) this "__container__"
  = VRef c2 ->
  is_Some (heap (final (exec env (factoryFor this name1 VUndefined) w)) !! new_loc w) ->
  issued (exec env (factoryFor this name1 VUndefined) w)
  = [CallMethod c1 "factoryFor" [name1; VRef (new_loc w)]]
  /\ issued (exec env (factoryFor this name2 VUndefined)
               (final (exec env (factoryFor this name1 VUndefined) w)))
     = [CallMethod c2 "factoryFor"
          [name2; VRef (new_loc (final (exec env (factoryFor this name1 VUndefined) w)))]]
  /\ new_loc (final (exec env (factoryFor this name1 VUndefined) w)) <> new_loc w.
Proof.
  intros Hc1 Hc2 Hkept.
  assert (forall name c (w' : world H X),
            read_field w' this "__container__" = VRef c ->
            issued (exec env (factoryFor this name VUndefined) w')
            = [CallMethod c "factoryFor" [name; VRef (new_loc w')]]) as Hissued.
  { intros name c w' Hc. rewrite exec_factoryFor_omitted. unfold container_call.
    rewrite read_field_alloc, Hc. destruct (env _ (alloc w')). reflexivity. }
  split; [apply Hissued, Hc1|]. split; [apply Hissued, Hc2|].
  intros Heq. rewrite <- Heq, new_loc_fresh in Hkept. destruct Hkept as [ob Hob]. discriminate.
Qed.

(** X9: the mixin keeps no record of a request and does not detach the
    container: a second [willDestroy] on an owner that still holds the
    container asks [run] for its destruction a second time. *)
Theorem willDestroy_twice_schedules_twice this args1 args2 c u1 u2 v
    (w w1 w2 w3 : world H X) :
  env (CallSuper this "willDestroy" args1) w = (Normal u1, w1) ->
  read_field w1 this "__container__" = VRef c ->
  env (CallRun [VRef c; VStr "destroy"]) w1 = (Normal v, w2) ->
  env (CallSuper this "willDestroy" args2) w2 = (Normal u2, w3) ->
  read_field w3 this "__container__" = VRef c ->
  scheduled (issued (exec env (willDestroy this args1) w)
             ++ issued (exec env (willDestroy this args2)
                          (final (exec env (willDestroy this args1) w))))%list
  = [CallRun [VRef c; VStr "destroy"]; CallRun [VRef c; VStr "destroy"]].
Proof.
  intros Hsuper1 Hc1 Hrun1 Hsuper2 Hc2.
  assert (exec env (willDestroy this args1) w
          = Outcome (Normal VUndefined) w2
              [CallSuper this "willDestroy" args1; CallRun [VRef c; VStr "destroy"]]) as ->.
  { rewrite exec_willDestroy, Hsuper1. cbv zeta. rewrite Hc1. cbn [to_boolean].
    rewrite Hrun1. reflexivity. }
  cbn [final issued].
  rewrite exec_willDestroy, Hsuper2. cbv zeta. rewrite Hc2. cbn [to_boolean].
  destruct (env (CallRun [VRef c; VStr "destroy"]) w3) as [[v'|e] w4]; reflexivity.
Qed.

End MixinEdgeCases.

(** ** The edge cases on concrete worlds *)

Section MixinEdgeExamples.
Import ContainerProxyMixin Scenario.

Lemma forwarders_without_container_witness :
  exec Container.env (lookup owner (VStr "api:twitter") VUndefined) bare
  = Outcome (Abrupt TypeError) bare []
  /\ exec Container.env (ownerInjection owner) bare = Outcome (Abrupt TypeError) bare [].
Proof.
  apply (forwarders_without_container_throw
           Container.env owner (VStr "api:twitter") VUndefined bare).
  left. vm_compute. reflexivity.
Defined.

Lemma factoryFor_without_container_witness :
  exec Container.env (factoryFor owner (VStr "api:twitter") VUndefined) bare
  = Outcome (Abrupt TypeError) (alloc bare) [].
Proof.
  apply (factoryFor_without_container_throws
           Container.env owner (VStr "api:twitter") VUndefined bare).
  left. vm_compute. reflexivity.
Defined.

Lemma willDestroy_super_failure_witness :
  exec Faults.failing_super (willDestroy owner []) w0
  = Outcome (Abrupt (Thrown (VStr "teardown failed"))) w0 [CallSuper owner "willDestroy" []].
Proof.
  apply (willDestroy_propagates_super_failure
           Faults.failing_super owner [] (Thrown (VStr "teardown failed")) w0 w0).
  reflexivity.
Defined.

Lemma willDestroy_run_failure_witness :
  result (exec Faults.failing_run (willDestroy owner []) w0)
  = match fst (Faults.failing_run
                 (CallRun [read_field w0 owner "__container__"; VStr "destroy"]) w0) with
    | Normal _ => Normal VUndefined
    | Abrupt e => Abrupt e
    end
  /\ final (exec Faults.failing_run (willDestroy owner []) w0)
     = snd (Faults.failing_run
              (CallRun [read_field w0 owner "__container__"; VStr "destroy"]) w0).
Proof.
  apply (willDestroy_result_follows_run Faults.failing_run owner [] VUndefined w0 w0).
  - reflexivity.
  - vm_compute. reflexivity.
Defined.

Lemma factoryFor_default_objects_witness :
  issued (exec Container.env (factoryFor owner (VStr "api:twitter") VUndefined) w0)
  = [CallMethod container_loc "factoryFor" [VStr "api:twitter"; VRef (new_loc w0)]]
  /\ issued (exec Container.env (factoryFor owner (VStr "api:twitter") VUndefined)
               (final (exec Container.env
                         (factoryFor owner (VStr "api:twitter") VUndefined) w0)))
     = [CallMethod container_loc "factoryFor"
          [VStr "api:twitter";
           VRef (new_loc (final (exec Container.env
                                   (factoryFor owner (VStr "api:twitter") VUndefined) w0)))]]
  /\ new_loc (final (exec Container.env
                       (factoryFor owner (VStr "api:twitter") VUndefined) w0))
     <> new_loc w0.
Proof.
  apply (factoryFor_default_objects_are_distinct
           Container.env owner (VStr "api:twitter") (VStr "api:twitter")
           container_loc container_loc w0).
  - vm_compute. reflexivity.
  - vm_compute. reflexivity.
  - vm_compute. eexists. reflexivity.
Defined.

Lemma willDestroy_twice_witness :
  scheduled (issued (exec echo (willDestroy owner []) w0)
             ++ issued (exec echo (willDestroy owner [])
                          (final (exec echo (willDestroy owner []) w0))))%list
  = [CallRun [VRef container_loc; VStr "destroy"];
     CallRun [VRef container_loc; VStr "destroy"]].
Proof.
  apply (willDestroy_twice_schedules_twice echo owner [] [] container_loc
           VUndefined VUndefined VUndefined w0 w0 w0 w0).
  - reflexivity.
  - vm_compute. reflexivity.
  - reflexivity.
  - reflexivity.
  - vm_compute. reflexivity.
Defined.

End MixinEdgeExamples.
